(** * MT25082_PA02: the four plotting scripts

    The repository consists of four straight-line Python scripts
    (MT25082_plot_cache_misses.py, MT25082_plot_cycles_per_byte.py,
    MT25082_plot_latency.py, MT25082_plot_throughput.py).  Each one binds a
    few module-level lists of literals, drives matplotlib's pyplot interface
    through a fixed sequence of calls, saves the figure and prints one line.

    The scripts are embedded as computations in a reader/state/exception
    monad: the reader part is the host environment (command line, process
    environment, disk, network, which paths accept a write), the state part is the
    pyplot state together with what the process has written so far, and the
    exception part is an uncaught Python exception.  [main] is a script
    from its first pyplot call on; [program] is the whole file, with the
    import of matplotlib and the selection of the backend in front. *)

From Stdlib Require Import ZArith List String Ascii PrimFloat DecimalString Bool Lia.
Import ListNotations.
Set Warnings "-inexact-float".
Open Scope string_scope.
Open Scope list_scope.

(** ** Python values *)

(** The numbers that occur in the data tables: Python [int]s and [float]s
    (binary64; a decimal literal denotes the nearest double, in Python as in
    the [%float] notation). *)
Inductive num : Type :=
| PyInt (z : Z)
| PyFloat (f : float).

Definition ints : list Z -> list num := map PyInt.
Definition floats : list float -> list num := map PyFloat.

(** [str(n)] for an [int]: its decimal numeral. *)
Definition str (z : Z) : string := NilZero.string_of_int (Z.to_int z).

(** The newline escape of the two-line [system_config] literals. *)
Definition nl : string := String (ascii_of_nat 10) EmptyString.

(** Removing the element at position [i] of a list literal. *)
Definition remove_at {A : Type} (i : nat) (l : list A) : list A :=
  firstn i l ++ skipn (S i) l.

(** Replacing the [k]-th entry of a list by its image under [f]. *)
Fixpoint update_nth {A : Type} (k : nat) (f : A -> A) (l : list A) : list A :=
  match l, k with
  | [], _ => []
  | x :: r, O => f x :: r
  | x :: r, S k' => x :: update_nth k' f r
  end.

(** ** Matplotlib objects, as far as the scripts configure them *)

Inductive scale : Type :=
| Linear
| Log (base : Z).

Record Line2D : Type := mkLine {
  xdata : list num;
  ydata : list num;
  marker : string;
  linewidth : Z;
  markersize : Z;
  color : string;
  label : string }.

Record Text : Type := mkText {
  text : string;
  fontsize : Z;
  fontweight : string;
  pad : option Z }.

Record Grid : Type := mkGrid {
  grid_on : bool;
  linestyle : string;
  alpha : float }.

Record Legend : Type := mkLegend {
  legend_fontsize : Z;
  loc : string;
  framealpha : float }.

Record Axes : Type := mkAxes {
  lines : list Line2D;
  xlabel : option Text;
  ylabel : option Text;
  title : option Text;
  xscale : scale;
  xticks : option (list num);
  xticklabels : option (list string * Z);
  ytick_labelsize : option Z;
  grid : option Grid;
  legend : option Legend }.

(** A fresh axes: no artists, linear scale, ticks and labels left to the
    automatic locator and formatter. *)
Definition new_axes : Axes :=
  mkAxes [] None None None Linear None None None None None.

Record SupTitle : Type := mkSupTitle {
  sup_text : string;
  sup_fontsize : Z;
  sup_fontweight : string;
  sup_y : float }.

Record FigText : Type := mkFigText {
  ft_x : float;
  ft_y : float;
  ft_text : string;
  ft_ha : string;
  ft_fontsize : Z;
  ft_style : string;
  ft_color : string }.

Record Figure : Type := mkFigure {
  figsize : Z * Z;
  axes : list Axes;
  suptitle : option SupTitle;
  texts : list FigText;
  tight : bool }.

(** ** The process state *)

Record SavefigCall : Type := mkSavefigCall {
  fname : string;
  dpi : Z;
  bbox_inches : string }.

Record SavedFile : Type := mkSavedFile {
  saved_as : SavefigCall;
  image : option Figure }.

Record World : Type := mkWorld {
  figure : option Figure;            (* pyplot's current figure *)
  savefig_calls : list SavefigCall;  (* every call of plt.savefig, in order *)
  written : list SavedFile;          (* the writes that went through *)
  stdout : list string;              (* the lines printed *)
  backend : option string;           (* matplotlib's backend setting *)
  cwd_rc : option string }.          (* the start-up file that was loaded *)

Definition init_world : World := mkWorld None [] [] [] None None.

(** What a run could consult from outside the program text.  The start-up
    of matplotlib reads [environ] and [disk]; [savefig] asks [writable];
    no statement of the scripts reads [argv] or [network], which are here
    so that statements can range over hosts that differ in them. *)
Record Env : Type := mkEnv {
  argv : list string;
  environ : list (string * string);
  disk : list (string * string);
  network : list string;
  writable : string -> bool;
  known_backend : string -> bool }.

Inductive exn : Type :=
| ValueError_shape (nx ny : nat)
| ValueError_unpack
| TypeError_unpack
| AttributeError_axes
| ValueError_backend (name : string)
| OSError (filename : string).

Inductive outcome (A : Type) : Type :=
| Ok (a : A) (w : World)
| Raise (e : exn) (w : World).
Arguments Ok {A} a w.
Arguments Raise {A} e w.

Definition M (A : Type) : Type := Env -> World -> outcome A.

Definition ret {A : Type} (a : A) : M A := fun _ w => Ok a w.

Definition bind {A B : Type} (m : M A) (k : A -> M B) : M B :=
  fun env w =>
    match m env w with
    | Ok a w' => k a env w'
    | Raise e w' => Raise e w'
    end.

Definition raise {A : Type} (e : exn) : M A := fun _ w => Raise e w.

Declare Scope py_scope.
Delimit Scope py_scope with py.
Notation "x <- c ;; k" := (bind c (fun x => k))
  (at level 61, c at next level, right associativity) : py_scope.
Notation "c ;; k" := (bind c (fun _ => k))
  (at level 61, right associativity) : py_scope.

Definition world_of {A : Type} (o : outcome A) : World :=
  match o with
  | Ok _ w => w
  | Raise _ w => w
  end.

Definition run (m : M unit) (env : Env) : outcome unit := m env init_world.

(** ** pyplot, Figure and Axes methods

    Matplotlib itself is not part of the repository: a method is modelled
    as recording its arguments in the object it is called on.  An axes
    object is referred to by its position in the current figure.
    The scripts call the methods below only after [plt.subplots]; without a
    current figure, or at a position the figure does not have, the model
    stops with [AttributeError_axes]. *)

Definition set_figure (fg : option Figure) (w : World) : World :=
  mkWorld fg (savefig_calls w) (written w) (stdout w) (backend w) (cwd_rc w).

Definition modify_figure (f : Figure -> Figure) : M unit :=
  fun _ w =>
    match figure w with
    | Some fg => Ok tt (set_figure (Some (f fg)) w)
    | None => Raise AttributeError_axes w
    end.

Definition modify_axes (ax : nat) (f : Axes -> Axes) : M unit :=
  fun _ w =>
    match figure w with
    | Some fg =>
        if Nat.ltb ax (List.length (axes fg))
        then Ok tt (set_figure
                      (Some (mkFigure (figsize fg) (update_nth ax f (axes fg))
                                      (suptitle fg) (texts fg) (tight fg))) w)
        else Raise AttributeError_axes w
    | None => Raise AttributeError_axes w
    end.

(** [plt.subplots(nrows, ncols, figsize=...)]: a new current figure with
    [nrows * ncols] fresh axes. *)
Definition plt_subplots (nrows ncols : nat) (size : Z * Z) : M (list nat) :=
  fun _ w =>
    Ok (seq 0 (nrows * ncols))
       (set_figure
          (Some (mkFigure size (repeat new_axes (nrows * ncols)) None [] false)) w).

(** [fig, ax = plt.subplots(...)]: [subplots] hands back the one axes of a
    1x1 figure as it is, and an array of axes otherwise.  The assignment
    itself always goes through; with an array in [ax], the statement that
    follows it in the scripts, [ax.plot(...)], ends in [AttributeError],
    and nothing happens in between. *)
Definition unpack1 (axs : list nat) : M nat :=
  match axs with
  | [ax] => ret ax
  | _ => raise AttributeError_axes
  end.

(** [fig, (ax1, ax2) = plt.subplots(...)]: a single axes cannot be unpacked
    ([TypeError]), an array of another size than two gives [ValueError]. *)
Definition unpack2 (axs : list nat) : M (nat * nat) :=
  match axs with
  | [ax1; ax2] => ret (ax1, ax2)
  | [_] => raise TypeError_unpack
  | _ => raise ValueError_unpack
  end.

Definition add_line (l : Line2D) (a : Axes) : Axes :=
  mkAxes (lines a ++ [l]) (xlabel a) (ylabel a) (title a) (xscale a)
         (xticks a) (xticklabels a) (ytick_labelsize a) (grid a) (legend a).

(** Modelled from the spec: matplotlib's [Axes.plot] is not part of the
    repository; its check of the two arguments is taken from the spec's
    words, "will fail with a shape-mismatch error from the underlying
    plotting primitive" when a series and its axis differ in length.  With
    equal lengths the line is appended to the axes as given. *)
Definition ax_plot (ax : nat) (x y : list num)
    (marker : string) (linewidth markersize : Z) (color label : string) : M unit :=
  fun env w =>
    if Nat.eqb (List.length x) (List.length y)
    then modify_axes ax
           (add_line (mkLine x y marker linewidth markersize color label)) env w
    else Raise (ValueError_shape (List.length x) (List.length y)) w.

Definition ax_set_xlabel (ax : nat) (s : string) (size : Z) (weight : string) : M unit :=
  modify_axes ax (fun a =>
    mkAxes (lines a) (Some (mkText s size weight None)) (ylabel a) (title a)
           (xscale a) (xticks a) (xticklabels a) (ytick_labelsize a)
           (grid a) (legend a)).

Definition ax_set_ylabel (ax : nat) (s : string) (size : Z) (weight : string) : M unit :=
  modify_axes ax (fun a =>
    mkAxes (lines a) (xlabel a) (Some (mkText s size weight None)) (title a)
           (xscale a) (xticks a) (xticklabels a) (ytick_labelsize a)
           (grid a) (legend a)).

Definition ax_set_title (ax : nat) (s : string) (size : Z) (weight : string)
    (pad : option Z) : M unit :=
  modify_axes ax (fun a =>
    mkAxes (lines a) (xlabel a) (ylabel a) (Some (mkText s size weight pad))
           (xscale a) (xticks a) (xticklabels a) (ytick_labelsize a)
           (grid a) (legend a)).

Definition ax_set_xscale (ax : nat) (sc : scale) : M unit :=
  modify_axes ax (fun a =>
    mkAxes (lines a) (xlabel a) (ylabel a) (title a)
           sc (xticks a) (xticklabels a) (ytick_labelsize a)
           (grid a) (legend a)).

Definition ax_set_xticks (ax : nat) (ticks : list num) : M unit :=
  modify_axes ax (fun a =>
    mkAxes (lines a) (xlabel a) (ylabel a) (title a)
           (xscale a) (Some ticks) (xticklabels a) (ytick_labelsize a)
           (grid a) (legend a)).

Definition ax_set_xticklabels (ax : nat) (labels : list string) (size : Z) : M unit :=
  modify_axes ax (fun a =>
    mkAxes (lines a) (xlabel a) (ylabel a) (title a)
           (xscale a) (xticks a) (Some (labels, size)) (ytick_labelsize a)
           (grid a) (legend a)).

(** [ax.tick_params(axis='y', labelsize=...)]. *)
Definition ax_tick_params_y (ax : nat) (labelsize : Z) : M unit :=
  modify_axes ax (fun a =>
    mkAxes (lines a) (xlabel a) (ylabel a) (title a)
           (xscale a) (xticks a) (xticklabels a) (Some labelsize)
           (grid a) (legend a)).

Definition ax_grid (ax : nat) (on : bool) (style : string) (al : float) : M unit :=
  modify_axes ax (fun a =>
    mkAxes (lines a) (xlabel a) (ylabel a) (title a)
           (xscale a) (xticks a) (xticklabels a) (ytick_labelsize a)
           (Some (mkGrid on style al)) (legend a)).

Definition ax_legend (ax : nat) (size : Z) (where_ : string) (fa : float) : M unit :=
  modify_axes ax (fun a =>
    mkAxes (lines a) (xlabel a) (ylabel a) (title a)
           (xscale a) (xticks a) (xticklabels a) (ytick_labelsize a)
           (grid a) (Some (mkLegend size where_ fa))).

Definition fig_suptitle (s : string) (size : Z) (weight : string) (y : float) : M unit :=
  modify_figure (fun fg =>
    mkFigure (figsize fg) (axes fg) (Some (mkSupTitle s size weight y))
             (texts fg) (tight fg)).

Definition fig_text (x y : float) (s ha : string) (size : Z)
    (style color : string) : M unit :=
  modify_figure (fun fg =>
    mkFigure (figsize fg) (axes fg) (suptitle fg)
             (texts fg ++ [mkFigText x y s ha size style color]) (tight fg)).

Definition plt_tight_layout : M unit :=
  modify_figure (fun fg =>
    mkFigure (figsize fg) (axes fg) (suptitle fg) (texts fg) true).

(** Modelled from the spec: matplotlib's [savefig] is not part of the
    repository; "if the output path is not writable, the process fails with
    a filesystem error".  Whether the path takes the write is the host's
    business; a refused write raises [OSError] out of the call, an accepted
    one leaves the file with the current figure.  The call itself is
    recorded either way. *)
Definition plt_savefig (name : string) (resolution : Z) (bbox : string) : M unit :=
  fun env w =>
    let call := mkSavefigCall name resolution bbox in
    let calls := savefig_calls w ++ [call] in
    if writable env name
    then Ok tt (mkWorld (figure w) calls
                        (written w ++ [mkSavedFile call (figure w)]) (stdout w)
                        (backend w) (cwd_rc w))
    else Raise (OSError name)
               (mkWorld (figure w) calls (written w) (stdout w)
                        (backend w) (cwd_rc w)).

Definition print (line : string) : M unit :=
  fun _ w =>
    Ok tt (mkWorld (figure w) (savefig_calls w) (written w) (stdout w ++ [line])
                   (backend w) (cwd_rc w)).

(** ** The import of matplotlib and the choice of backend

    The first statements of every script.  What they do is matplotlib's
    start-up, as its documentation has it: the file [matplotlibrc] of the
    working directory, if there is one, is loaded as the start-up
    configuration; a non-empty environment variable [MPLBACKEND] then sets
    the backend, and the import fails when it names no backend of the
    installation.  Which names the installation knows is the host's
    business.  Later places of the search for a start-up file, and a file
    that cannot be decoded, are outside this host record. *)

Fixpoint assoc (key : string) (l : list (string * string)) : option string :=
  match l with
  | [] => None
  | (k, v) :: r => if String.eqb k key then Some v else assoc key r
  end.

Definition set_mpl (b : option string) (rc : option string) (w : World) : World :=
  mkWorld (figure w) (savefig_calls w) (written w) (stdout w) b rc.

(** [import matplotlib]. *)
Definition import_matplotlib : M unit :=
  fun env w =>
    let rc := assoc "matplotlibrc" (disk env) in
    match assoc "MPLBACKEND" (environ env) with
    | None | Some EmptyString => Ok tt (set_mpl (backend w) rc w)
    | Some b =>
        if known_backend env b
        then Ok tt (set_mpl (Some b) rc w)
        else Raise (ValueError_backend b) (set_mpl (backend w) rc w)
    end.

(** [matplotlib.use(name)]: whatever the start-up has chosen, the backend
    is [name] from here on. *)
Definition matplotlib_use (name : string) : M unit :=
  fun env w =>
    if known_backend env name
    then Ok tt (set_mpl (Some name) (cwd_rc w) w)
    else Raise (ValueError_backend name) w.

(** Lines 12 to 14 of every script; [import matplotlib.pyplot as plt] binds
    the name [plt] and leaves pyplot without a current figure, as it is. *)
Definition prelude : M unit :=
  (import_matplotlib ;;
   matplotlib_use "Agg")%py.

(** Whether the host lets the prelude through. *)
Definition imports_ok (env : Env) : bool :=
  match assoc "MPLBACKEND" (environ env) with
  | None | Some EmptyString => true
  | Some b => known_backend env b
  end && known_backend env "Agg".

(** ** The scripts

    Each script is written once as a function of its series tables (the
    module-level lists of the source that are passed to [plot] as y-values),
    and [main] is that function at the literals of the source. *)

Module PlotThroughput.

Definition msg_sizes : list Z := [64; 256; 1024; 4096]%Z.

Definition system_config : string :=
  ("System: Linux 6.14.0 | CPU: 13th Gen Intel i7-13700H | RAM: 16 GB" ++ nl ++
   "Network: veth pair (net namespaces) | Duration: 3s | Threads: avg across 1,2,4,8")%string.

Section Script.
Variables throughput_a1 throughput_a2 throughput_a3 : list num.

Definition script : M unit :=
  (axs <- plt_subplots 1 1 (10, 6)%Z ;;
   ax <- unpack1 axs ;;
   ax_plot ax (ints msg_sizes) throughput_a1
           "o" 2 8 "#e74c3c" "A1: Two-Copy (send/recv)" ;;
   ax_plot ax (ints msg_sizes) throughput_a2
           "s" 2 8 "#2ecc71" "A2: One-Copy (sendmsg + iovec)" ;;
   ax_plot ax (ints msg_sizes) throughput_a3
           "^" 2 8 "#3498db" "A3: Zero-Copy (MSG_ZEROCOPY)" ;;
   ax_set_xlabel ax "Message Size (bytes)" 13 "bold" ;;
   ax_set_ylabel ax "Throughput (Gbps)" 13 "bold" ;;
   ax_set_title ax "Throughput vs Message Size — Network I/O Primitives Comparison"
                14 "bold" (Some 15%Z) ;;
   ax_set_xscale ax (Log 2) ;;
   ax_set_xticks ax (ints msg_sizes) ;;
   ax_set_xticklabels ax (map str msg_sizes) 11 ;;
   ax_tick_params_y ax 11 ;;
   ax_grid ax true "--" 0.6 ;;
   ax_legend ax 11 "upper left" 0.9 ;;
   fig_text 0.5 (-0.02) system_config "center" 9 "italic" "gray" ;;
   plt_tight_layout ;;
   plt_savefig "MT25082_throughput.png" 200 "tight" ;;
   print "Saved: MT25082_throughput.png")%py.

End Script.

Definition throughput_a1 : list float := [0.1032; 0.4394; 1.6734; 6.2939]%float.
Definition throughput_a2 : list float := [0.7531; 3.064; 11.4204; 39.766]%float.
Definition throughput_a3 : list float := [0.386; 1.7111; 6.4895; 24.3144]%float.

Definition main : M unit :=
  script (floats throughput_a1) (floats throughput_a2) (floats throughput_a3).

End PlotThroughput.

Module PlotCyclesPerByte.

Definition msg_sizes : list Z := [64; 256; 1024; 4096]%Z.

Definition system_config : string :=
  ("System: Linux 6.14.0 | CPU: 13th Gen Intel i7-13700H | RAM: 16 GB" ++ nl ++
   "Network: veth pair (net namespaces) | Duration: 3s | Threads: avg across 1,2,4,8")%string.

Section Script.
Variables cycles_per_byte_a1 cycles_per_byte_a2 cycles_per_byte_a3 : list num.

Definition script : M unit :=
  (axs <- plt_subplots 1 1 (10, 6)%Z ;;
   ax <- unpack1 axs ;;
   ax_plot ax (ints msg_sizes) cycles_per_byte_a1
           "o" 2 8 "#e74c3c" "A1: Two-Copy (send/recv)" ;;
   ax_plot ax (ints msg_sizes) cycles_per_byte_a2
           "s" 2 8 "#2ecc71" "A2: One-Copy (sendmsg + iovec)" ;;
   ax_plot ax (ints msg_sizes) cycles_per_byte_a3
           "^" 2 8 "#3498db" "A3: Zero-Copy (MSG_ZEROCOPY)" ;;
   ax_set_xlabel ax "Message Size (bytes)" 13 "bold" ;;
   ax_set_ylabel ax "CPU Cycles per Byte Transferred" 13 "bold" ;;
   ax_set_title ax
     "CPU Cycles per Byte vs Message Size — Network I/O Primitives Comparison"
     14 "bold" (Some 15%Z) ;;
   ax_set_xscale ax (Log 2) ;;
   ax_set_xticks ax (ints msg_sizes) ;;
   ax_set_xticklabels ax (map str msg_sizes) 11 ;;
   ax_tick_params_y ax 11 ;;
   ax_grid ax true "--" 0.6 ;;
   ax_legend ax 11 "upper right" 0.9 ;;
   fig_text 0.5 (-0.02) system_config "center" 9 "italic" "gray" ;;
   plt_tight_layout ;;
   plt_savefig "MT25082_cycles_per_byte.png" 200 "tight" ;;
   print "Saved: MT25082_cycles_per_byte.png")%py.

End Script.

Definition cycles_per_byte_a1 : list float := [644.0; 161.7; 41.3; 10.8]%float.
Definition cycles_per_byte_a2 : list float := [101.1; 25.5; 6.2; 1.9]%float.
Definition cycles_per_byte_a3 : list float := [128.2; 29.7; 7.1; 2.2]%float.

Definition main : M unit :=
  script (floats cycles_per_byte_a1) (floats cycles_per_byte_a2)
         (floats cycles_per_byte_a3).

End PlotCyclesPerByte.

Module PlotLatency.

Definition thread_counts : list Z := [1; 2; 4; 8]%Z.

Definition system_config : string :=
  ("System: Linux 6.14.0 | CPU: 13th Gen Intel i7-13700H | RAM: 16 GB" ++ nl ++
   "Network: veth pair (net namespaces) | Duration: 3s | Msg sizes: avg across 64,256,1024,4096")%string.

Section Script.
Variables latency_a1 latency_a2 latency_a3 : list num.

Definition script : M unit :=
  (axs <- plt_subplots 1 1 (10, 6)%Z ;;
   ax <- unpack1 axs ;;
   ax_plot ax (ints thread_counts) latency_a1
           "o" 2 8 "#e74c3c" "A1: Two-Copy (send/recv)" ;;
   ax_plot ax (ints thread_counts) latency_a2
           "s" 2 8 "#2ecc71" "A2: One-Copy (sendmsg + iovec)" ;;
   ax_plot ax (ints thread_counts) latency_a3
           "^" 2 8 "#3498db" "A3: Zero-Copy (MSG_ZEROCOPY)" ;;
   ax_set_xlabel ax "Thread Count" 13 "bold" ;;
   ax_set_ylabel ax "Average Latency (µs / message)" 13 "bold" ;;
   ax_set_title ax "Latency vs Thread Count — Network I/O Primitives Comparison"
                14 "bold" (Some 15%Z) ;;
   ax_set_xticks ax (ints thread_counts) ;;
   ax_set_xticklabels ax (map str thread_counts) 11 ;;
   ax_tick_params_y ax 11 ;;
   ax_grid ax true "--" 0.6 ;;
   ax_legend ax 11 "upper left" 0.9 ;;
   fig_text 0.5 (-0.02) system_config "center" 9 "italic" "gray" ;;
   plt_tight_layout ;;
   plt_savefig "MT25082_latency.png" 200 "tight" ;;
   print "Saved: MT25082_latency.png")%py.

End Script.

Definition latency_a1 : list float := [14.56; 7.30; 3.95; 2.84]%float.
Definition latency_a2 : list float := [2.24; 1.11; 0.58; 0.41]%float.
Definition latency_a3 : list float := [3.43; 1.72; 1.05; 0.78]%float.

Definition main : M unit :=
  script (floats latency_a1) (floats latency_a2) (floats latency_a3).

End PlotLatency.

Module PlotCacheMisses.

Definition msg_sizes : list Z := [64; 256; 1024; 4096]%Z.

Definition system_config : string :=
  ("System: Linux 6.14.0 | CPU: 13th Gen Intel i7-13700H | RAM: 16 GB" ++ nl ++
   "Network: veth pair (net namespaces) | Duration: 3s | Threads: avg across 1,2,4,8")%string.

Section Script.
Variables l1_misses_a1 l1_misses_a2 l1_misses_a3 : list num.
Variables llc_misses_a1 llc_misses_a2 llc_misses_a3 : list num.

Definition script : M unit :=
  (axs <- plt_subplots 1 2 (14, 6)%Z ;;
   axp <- unpack2 axs ;;
   let ax1 := fst axp in
   let ax2 := snd axp in
   ax_plot ax1 (ints msg_sizes) l1_misses_a1
           "o" 2 8 "#e74c3c" "A1: Two-Copy (send/recv)" ;;
   ax_plot ax1 (ints msg_sizes) l1_misses_a2
           "s" 2 8 "#2ecc71" "A2: One-Copy (sendmsg + iovec)" ;;
   ax_plot ax1 (ints msg_sizes) l1_misses_a3
           "^" 2 8 "#3498db" "A3: Zero-Copy (MSG_ZEROCOPY)" ;;
   ax_set_xlabel ax1 "Message Size (bytes)" 12 "bold" ;;
   ax_set_ylabel ax1 "L1 Data Cache Misses" 12 "bold" ;;
   ax_set_title ax1 "L1 Cache Misses vs Message Size" 13 "bold" None ;;
   ax_set_xscale ax1 (Log 2) ;;
   ax_set_xticks ax1 (ints msg_sizes) ;;
   ax_set_xticklabels ax1 (map str msg_sizes) 10 ;;
   ax_tick_params_y ax1 10 ;;
   ax_grid ax1 true "--" 0.6 ;;
   ax_legend ax1 9 "upper left" 0.9 ;;
   ax_plot ax2 (ints msg_sizes) llc_misses_a1
           "o" 2 8 "#e74c3c" "A1: Two-Copy (send/recv)" ;;
   ax_plot ax2 (ints msg_sizes) llc_misses_a2
           "s" 2 8 "#2ecc71" "A2: One-Copy (sendmsg + iovec)" ;;
   ax_plot ax2 (ints msg_sizes) llc_misses_a3
           "^" 2 8 "#3498db" "A3: Zero-Copy (MSG_ZEROCOPY)" ;;
   ax_set_xlabel ax2 "Message Size (bytes)" 12 "bold" ;;
   ax_set_ylabel ax2 "LLC Load Misses" 12 "bold" ;;
   ax_set_title ax2 "LLC Load Misses vs Message Size" 13 "bold" None ;;
   ax_set_xscale ax2 (Log 2) ;;
   ax_set_xticks ax2 (ints msg_sizes) ;;
   ax_set_xticklabels ax2 (map str msg_sizes) 10 ;;
   ax_tick_params_y ax2 10 ;;
   ax_grid ax2 true "--" 0.6 ;;
   ax_legend ax2 9 "upper left" 0.9 ;;
   fig_suptitle "Cache Misses vs Message Size — Network I/O Primitives Comparison"
                14 "bold" 1.02 ;;
   fig_text 0.5 (-0.04) system_config "center" 9 "italic" "gray" ;;
   plt_tight_layout ;;
   plt_savefig "MT25082_cache_misses.png" 200 "tight" ;;
   print "Saved: MT25082_cache_misses.png")%py.

End Script.

Definition l1_misses_a1 : list Z := [291968304; 309217729; 307166401; 347778830]%Z.
Definition l1_misses_a2 : list Z := [286537273; 314324731; 346897605; 513598431]%Z.
Definition l1_misses_a3 : list Z := [295035969; 294291095; 289806198; 454019805]%Z.
Definition llc_misses_a1 : list Z := [26389; 18359; 19765; 24503]%Z.
Definition llc_misses_a2 : list Z := [20707; 25050; 78139; 1652451]%Z.
Definition llc_misses_a3 : list Z := [8207; 9827; 6801; 12790]%Z.

Definition main : M unit :=
  script (ints l1_misses_a1) (ints l1_misses_a2) (ints l1_misses_a3)
         (ints llc_misses_a1) (ints llc_misses_a2) (ints llc_misses_a3).

End PlotCacheMisses.

(** ** The four scripts side by side *)

Inductive script_id : Type :=
| cache_misses
| cycles_per_byte
| latency
| throughput.


Definition main (s : script_id) : M unit :=
  match s with
  | cache_misses => PlotCacheMisses.main
  | cycles_per_byte => PlotCyclesPerByte.main
  | latency => PlotLatency.main
  | throughput => PlotThroughput.main
  end.

(** The whole file: the imports, then the script. *)
Definition program (s : script_id) : M unit :=
  (prelude ;; main s)%py.

(** The file name that appears in the script's [savefig] and [print]. *)
Definition output_name (s : script_id) : string :=
  match s with
  | cache_misses => "MT25082_cache_misses.png"
  | cycles_per_byte => "MT25082_cycles_per_byte.png"
  | latency => "MT25082_latency.png"
  | throughput => "MT25082_throughput.png"
  end.

(** The list every series of the script is plotted against. *)
Definition x_axis (s : script_id) : list Z :=
  match s with
  | cache_misses => PlotCacheMisses.msg_sizes
  | cycles_per_byte => PlotCyclesPerByte.msg_sizes
  | latency => PlotLatency.thread_counts
  | throughput => PlotThroughput.msg_sizes
  end.

(** The series tables of a script, in the order of its [plot] calls. *)
Definition series_tables (s : script_id) : list (list num) :=
  match s with
  | cache_misses =>
      [ints PlotCacheMisses.l1_misses_a1; ints PlotCacheMisses.l1_misses_a2;
       ints PlotCacheMisses.l1_misses_a3; ints PlotCacheMisses.llc_misses_a1;
       ints PlotCacheMisses.llc_misses_a2; ints PlotCacheMisses.llc_misses_a3]
  | cycles_per_byte =>
      [floats PlotCyclesPerByte.cycles_per_byte_a1;
       floats PlotCyclesPerByte.cycles_per_byte_a2;
       floats PlotCyclesPerByte.cycles_per_byte_a3]
  | latency =>
      [floats PlotLatency.latency_a1; floats PlotLatency.latency_a2;
       floats PlotLatency.latency_a3]
  | throughput =>
      [floats PlotThroughput.throughput_a1; floats PlotThroughput.throughput_a2;
       floats PlotThroughput.throughput_a3]
  end.

(** The script with its series tables replaced by [tbl] (an edit of the
    literals in the program text); a [tbl] of the wrong shape is no script. *)
Definition main_with (s : script_id) (tbl : list (list num)) : option (M unit) :=
  match s, tbl with
  | cache_misses, [a; b; c; d; e; f] => Some (PlotCacheMisses.script a b c d e f)
  | cycles_per_byte, [a; b; c] => Some (PlotCyclesPerByte.script a b c)
  | latency, [a; b; c] => Some (PlotLatency.script a b c)
  | throughput, [a; b; c] => Some (PlotThroughput.script a b c)
  | _, _ => None
  end.

(** Running the edited script. *)
Definition run_with (s : script_id) (tbl : list (list num)) (env : Env)
    : option (outcome unit) :=
  option_map (fun m => run m env) (main_with s tbl).

(** ** Observations on a run *)

Definition panels {A : Type} (o : outcome A) : list Axes :=
  match figure (world_of o) with
  | Some fg => axes fg
  | None => []
  end.

Definition files_written {A : Type} (o : outcome A) : list string :=
  map (fun f => fname (saved_as f)) (written (world_of o)).

Definition printed {A : Type} (o : outcome A) : list string :=
  stdout (world_of o).

Definition confirmation (s : script_id) : string :=
  ("Saved: " ++ output_name s)%string.

(** The style triple of a plotted series. *)
Definition style (l : Line2D) : string * string * string :=
  (marker l, color l, label l).

Definition tick_labels (a : Axes) : option (list string) :=
  option_map fst (xticklabels a).

(** Two hosts: one where every path takes a write, one where none does. *)
Definition host_rw : Env := mkEnv [] [] [] [] (fun _ => true) (fun _ => true).
Definition host_ro : Env := mkEnv [] [] [] [] (fun _ => false) (fun _ => true).

(** The claim that a run leaves exactly the script's file and exactly its
    confirmation line. *)
Definition saves_and_confirms (s : script_id) (env : Env) : Prop :=
  files_written (run (main s) env) = [output_name s] /\
  printed (run (main s) env) = [confirmation s].

(** All series drawn in a run, panel after panel. *)
Definition series_drawn {A : Type} (o : outcome A) : list Line2D :=
  List.concat (map lines (panels o)).

Definition complete (n : nat) (l : Line2D) : Prop :=
  List.length (xdata l) = n /\ List.length (ydata l) = n.

(** The three strategies' styles, in plotting order. *)
Definition strategy_styles : list (string * string * string) :=
  [("o", "#e74c3c", "A1: Two-Copy (send/recv)");
   ("s", "#2ecc71", "A2: One-Copy (sendmsg + iovec)");
   ("^", "#3498db", "A3: Zero-Copy (MSG_ZEROCOPY)")].


(** ** Edited tables

    The source asks for it ("Update these values with your actual
    experimental measurements"): the tables are meant to be replaced.  The
    definitions below speak about a script at tables other than the
    shipped ones. *)

(** Every table has as many values as the script's x-axis list. *)
Definition well_shaped (s : script_id) (tbl : list (list num)) : Prop :=
  Forall (fun t => List.length t = List.length (x_axis s)) tbl.

(** The tables in the order of the [plot] calls, three to a panel. *)
Fixpoint by_three (tbl : list (list num)) : list (list (list num)) :=
  match tbl with
  | a :: b :: c :: rest => [a; b; c] :: by_three rest
  | [] => []
  | short => [short]
  end.

(** The arguments of the script's [savefig] call. *)
Definition savefig_call (s : script_id) : SavefigCall :=
  mkSavefigCall (output_name s) 200 "tight".

(** The figure the edited script has built when it stops. *)
Definition chart_of (s : script_id) (tbl : list (list num)) : option Figure :=
  match run_with s tbl host_rw with
  | Some o => figure (world_of o)
  | None => None
  end.

(** A figure with the y-values of all its series blanked out. *)
Definition blank_line (l : Line2D) : Line2D :=
  mkLine (xdata l) [] (marker l) (linewidth l) (markersize l) (color l) (label l).

Definition blank_axes (a : Axes) : Axes :=
  mkAxes (map blank_line (lines a)) (xlabel a) (ylabel a) (title a) (xscale a)
         (xticks a) (xticklabels a) (ytick_labelsize a) (grid a) (legend a).

Definition blank_y (fg : Figure) : Figure :=
  mkFigure (figsize fg) (map blank_axes (axes fg)) (suptitle fg) (texts fg)
           (tight fg).

(** A table that matplotlib takes over value by value: all floats, or all
    integers that a double holds exactly.  (A list that mixes the two, or
    holds larger integers, is converted on the way in.) *)
Definition is_float (n : num) : bool :=
  match n with PyFloat _ => true | PyInt _ => false end.

Definition is_small_int (n : num) : bool :=
  match n with
  | PyInt z => (Z.abs z <=? 2 ^ 53)%Z
  | PyFloat _ => false
  end.

Definition plain_table (t : list num) : bool :=
  forallb is_float t || forallb is_small_int t.

(** The x-axis settings of a panel: scale, ticks, tick labels. *)
Definition x_axis_setup (a : Axes) : scale * option (list num) * option (list string) :=
  (xscale a, xticks a, tick_labels a).

Definition is_log2 (sc : scale) : bool :=
  match sc with
  | Log b => (b =? 2)%Z
  | Linear => false
  end.



(** Sample hosts and tables for the examples: made-up series of 4 values;
    a host with a command line, a backend in its process environment and
    a start-up file on disk; and a host whose [MPLBACKEND] names a backend
    that the installation does not know. *)
Definition edited_latency : list (list num) :=
  [floats [10.0; 5.0; 2.5; 1.25]%float; ints [4; 3; 2; 1]%Z;
   floats [0.5; 0.25; 0.125; 0.0625]%float].
Definition edited_cache : list (list num) :=
  [ints [1; 2; 3; 4]%Z; ints [5; 6; 7; 8]%Z; ints [9; 10; 11; 12]%Z;
   floats [0.5; 1.5; 2.5; 3.5]%float; ints [4; 3; 2; 1]%Z;
   floats [8.0; 4.0; 2.0; 1.0]%float].

(** * Properties *)

(** ** How a run depends on its host *)

(** The only thing a run takes from its host is whether the script's own
    output path accepts the write. *)
Lemma run_main_host (s : script_id) (env : Env) :
  run (main s) env =
  if writable env (output_name s)
  then run (main s) host_rw
  else run (main s) host_ro.
Proof.
  destruct env as [av en dk nw wr kb]; destruct s; vm_compute;
    destruct (wr _); reflexivity.
Qed.

(** Up to the call of [savefig] the two hosts see the same figure. *)
Lemma figure_host_ro_rw (s : script_id) :
  figure (world_of (run (main s) host_ro)) =
  figure (world_of (run (main s) host_rw)).
Proof. destruct s; vm_compute; reflexivity. Qed.

Lemma figure_any_host (s : script_id) (env : Env) :
  figure (world_of (run (main s) env)) =
  figure (world_of (run (main s) host_rw)).
Proof.
  rewrite (run_main_host s env).
  destruct (writable env (output_name s)); [reflexivity | apply figure_host_ro_rw].
Qed.

Lemma panels_any_host (s : script_id) (env : Env) :
  panels (run (main s) env) = panels (run (main s) host_rw).
Proof. unfold panels. now rewrite figure_any_host. Qed.

(** Each script reaches its single [savefig] call on every host. *)
Lemma savefig_calls_any_host (s : script_id) (env : Env) :
  savefig_calls (world_of (run (main s) env)) =
    [mkSavefigCall (output_name s) 200 "tight"].
Proof.
  rewrite (run_main_host s env).
  destruct (writable env (output_name s)); destruct s; vm_compute; reflexivity.
Qed.

(** At the literals of the source, [main_with] is the script itself. *)
Lemma main_with_shipped (s : script_id) :
  main_with s (series_tables s) = Some (main s).
Proof.
  destruct s;
    cbv [main_with series_tables main PlotCacheMisses.main
         PlotCyclesPerByte.main PlotLatency.main PlotThroughput.main];
    reflexivity.
Qed.

(** ** General facts about the primitives *)

(** No handler anywhere: an exception raised by a step is the outcome of
    every computation that starts with that step. *)
Lemma bind_raise {A B : Type} (m : M A) (k : A -> M B) env w e w' :
  m env w = Raise e w' -> bind m k env w = Raise e w'.
Proof. intros H. unfold bind. now rewrite H. Qed.

Lemma bind_ok {A B : Type} (m : M A) (k : A -> M B) env w a w' :
  m env w = Ok a w' -> bind m k env w = k a env w'.
Proof. intros H. unfold bind. now rewrite H. Qed.

(** [plot] draws nothing when its arguments differ in length. *)
Lemma ax_plot_shape_mismatch ax x y mk lw ms c lb env w :
  List.length x <> List.length y ->
  ax_plot ax x y mk lw ms c lb env w =
  Raise (ValueError_shape (List.length x) (List.length y)) w.
Proof.
  intros H. unfold ax_plot.
  destruct (Nat.eqb (List.length x) (List.length y)) eqn:E; [| reflexivity].
  apply Nat.eqb_eq in E. contradiction.
Qed.

(** A refused write ends [savefig] with [OSError] and leaves no file. *)
Lemma plt_savefig_refused name res bbox env w :
  writable env name = false ->
  exists w', plt_savefig name res bbox env w = Raise (OSError name) w' /\
             written w' = written w /\ stdout w' = stdout w.
Proof.
  intros H. unfold plt_savefig. rewrite H. eexists. repeat split.
Qed.

Lemma length_remove_at {A : Type} (i : nat) (l : list A) :
  i < List.length l -> S (List.length (remove_at i l)) = List.length l.
Proof.
  revert i. induction l as [| x l IH]; intros i Hi; simpl in Hi; [lia |].
  destruct i as [| i]; [reflexivity |].
  unfold remove_at in *. simpl. f_equal. apply IH. lia.
Qed.

Lemma length_ints (l : list Z) : List.length (ints l) = List.length l.
Proof. apply length_map. Qed.

(** The first table of the throughput script goes to [plot] unchecked:
    whatever list stands there, if it has not the 4 values of the axis, the
    run ends at that call. *)
Lemma throughput_first_series_unchecked (a1 a2 a3 : list num) (env : Env) :
  List.length a1 <> 4 ->
  exists w,
    run (PlotThroughput.script a1 a2 a3) env =
      Raise (ValueError_shape 4 (List.length a1)) w /\
    series_drawn (run (PlotThroughput.script a1 a2 a3) env) = [] /\
    written w = [] /\ stdout w = [].
Proof.
  intros H.
  assert (Hrun : run (PlotThroughput.script a1 a2 a3) env =
                 Raise (ValueError_shape 4 (List.length a1))
                       (set_figure
                          (Some (mkFigure (10, 6)%Z [new_axes] None [] false))
                          init_world)).
  { unfold run, PlotThroughput.script.
    erewrite bind_ok by reflexivity.
    erewrite bind_ok by reflexivity.
    apply bind_raise.
    rewrite ax_plot_shape_mismatch; rewrite length_ints; [reflexivity | exact (not_eq_sym H)]. }
  eexists. split; [exact Hrun |]. rewrite Hrun. repeat split.
Qed.

(** ** Output file and confirmation line *)

(** C1, as stated, fails: "for every run" includes the runs in which the
    host refuses the write.  The cache-miss script on such a host leaves
    no file and prints nothing. *)
Lemma no_file_no_line_on_refused_write :
  files_written (run (main cache_misses) host_ro) = [] /\
  printed (run (main cache_misses) host_ro) = [] /\
  ~ saves_and_confirms cache_misses host_ro.
Proof.
  unfold saves_and_confirms. vm_compute.
  repeat split. intros [H _]. discriminate H.
Qed.

(** C1, amended: for every run of each of the four scripts in which the
    write of the image goes through, the run ends normally, exactly one
    file is written, under the script's fixed name, and exactly one line
    is printed, [Saved: ] followed by that name; for the cache-miss script
    these are MT25082_cache_misses.png and Saved: MT25082_cache_misses.png. *)
Theorem saves_and_confirms_when_written (s : script_id) (env : Env) :
  writable env (output_name s) = true ->
  (exists w, run (main s) env = Ok tt w) /\
  saves_and_confirms s env /\
  output_name cache_misses = "MT25082_cache_misses.png" /\
  confirmation cache_misses = "Saved: MT25082_cache_misses.png".
Proof.
  intros H. unfold saves_and_confirms.
  rewrite (run_main_host s env), H.
  destruct s; vm_compute; (split; [eexists; reflexivity | repeat split]).
Qed.

Lemma saves_and_confirms_witness :
  writable host_rw (output_name cache_misses) = true /\
  saves_and_confirms cache_misses host_rw.
Proof.
  split; [reflexivity |].
  apply (saves_and_confirms_when_written cache_misses host_rw). reflexivity.
Defined.

(** C9: every script calls [savefig] exactly once, with [dpi=200] and
    [bbox_inches='tight'], and every file a run writes carries these
    settings. *)
Theorem savefig_200_dpi_tight (s : script_id) (env : Env) :
  savefig_calls (world_of (run (main s) env)) =
    [mkSavefigCall (output_name s) 200 "tight"] /\
  Forall (fun f => dpi (saved_as f) = 200%Z /\ bbox_inches (saved_as f) = "tight")
         (written (world_of (run (main s) env))).
Proof.
  split; [apply savefig_calls_any_host |].
  rewrite (run_main_host s env).
  destruct (writable env (output_name s)); destruct s; vm_compute;
    repeat constructor.
Qed.

(** ** Failure of the write *)

(** C7: when the host refuses the write, the run ends with the [OSError]
    of that one [savefig] call (no second attempt), no file is written and
    nothing is printed; and whenever a run has printed something, the file
    has been written. *)
Theorem savefig_error_propagates (s : script_id) (env : Env) :
  (writable env (output_name s) = false ->
   exists w, run (main s) env = Raise (OSError (output_name s)) w /\
             List.length (savefig_calls w) = 1 /\
             written w = [] /\ stdout w = []) /\
  (printed (run (main s) env) <> [] ->
   files_written (run (main s) env) = [output_name s]).
Proof.
  rewrite (run_main_host s env).
  destruct (writable env (output_name s)); split; intros H.
  - discriminate H.
  - destruct s; vm_compute; reflexivity.
  - destruct s; vm_compute; eexists; repeat split.
  - exfalso. apply H. destruct s; vm_compute; reflexivity.
Qed.

Lemma savefig_error_witness :
  (writable host_ro (output_name latency) = false /\
   exists w, run (main latency) host_ro = Raise (OSError "MT25082_latency.png") w /\
             List.length (savefig_calls w) = 1 /\
             written w = [] /\ stdout w = []) /\
  (printed (run (main latency) host_rw) <> [] /\
   files_written (run (main latency) host_rw) = ["MT25082_latency.png"]).
Proof.
  split; split.
  - reflexivity.
  - apply (proj1 (savefig_error_propagates latency host_ro)). reflexivity.
  - vm_compute. discriminate.
  - apply (proj2 (savefig_error_propagates latency host_rw)).
    vm_compute. discriminate.
Defined.

(** ** What is drawn *)

(** C2: in the throughput script the first series, the two-copy one, is
    plotted against [64, 256, 1024, 4096] with the y-values
    [0.1032, 0.4394, 1.6734, 6.2939], the i-th y-value at the i-th
    x-value. *)
Theorem throughput_two_copy_series (env : Env) :
  exists p l rest,
    panels (run (main throughput) env) = [p] /\
    lines p = l :: rest /\
    label l = "A1: Two-Copy (send/recv)" /\
    xdata l = ints [64; 256; 1024; 4096]%Z /\
    ydata l = floats [0.1032; 0.4394; 1.6734; 6.2939]%float /\
    combine (xdata l) (ydata l) =
      [(PyInt 64, PyFloat 0.1032); (PyInt 256, PyFloat 0.4394);
       (PyInt 1024, PyFloat 1.6734); (PyInt 4096, PyFloat 6.2939)].
Proof.
  rewrite panels_any_host. vm_compute.
  do 3 eexists. repeat split.
Qed.

(** C3: the latency script draws exactly one panel, with x-ticks
    [1, 2, 4, 8] and a linear x-axis; each of the other three scripts puts
    a base-2 logarithmic scale on the x-axis of every panel it draws. *)
Theorem latency_linear_others_log2 (env : Env) :
  (exists p, panels (run (main latency) env) = [p] /\
             xticks p = Some (ints [1; 2; 4; 8]%Z) /\
             tick_labels p = Some ["1"; "2"; "4"; "8"] /\
             xscale p = Linear) /\
  Forall (fun s => panels (run (main s) env) <> [] /\
                   Forall (fun p => xscale p = Log 2) (panels (run (main s) env)))
         [cache_misses; cycles_per_byte; throughput].
Proof.
  split.
  - rewrite panels_any_host. vm_compute. eexists. repeat split.
  - repeat constructor; rewrite panels_any_host; vm_compute;
      try discriminate; repeat constructor.
Qed.

(** C4: the panels with a base-2 logarithmic x-axis are the two of the
    cache-miss chart, the one of the cycles-per-byte chart and the one of
    the throughput chart (the latency chart has none); on every one of
    them the ticks are set to the literal values [64, 256, 1024, 4096]
    and the tick labels to their decimal strings, in that order. *)
Theorem log_panels_literal_ticks (s : script_id) (env : Env) :
  map x_axis_setup
      (filter (fun p => is_log2 (xscale p)) (panels (run (main s) env))) =
    repeat (Log 2, Some (ints [64; 256; 1024; 4096]%Z),
            Some ["64"; "256"; "1024"; "4096"])
           (match s with cache_misses => 2 | latency => 0 | _ => 1 end) /\
  forall p, In p (panels (run (main s) env)) ->
            xscale p = Log 2 ->
            xticks p = Some (ints [64; 256; 1024; 4096]%Z) /\
            tick_labels p = Some ["64"; "256"; "1024"; "4096"] /\
            tick_labels p = Some (map str [64; 256; 1024; 4096]%Z).
Proof.
  rewrite panels_any_host. split.
  - destruct s; vm_compute; reflexivity.
  - intros p Hin Hlog.
    destruct s; vm_compute in Hin;
      repeat (destruct Hin as [Hin | Hin]; [subst p |]);
      try contradiction; try discriminate Hlog; vm_compute; repeat split.
Qed.

Lemma log_panels_literal_ticks_witness :
  List.length (panels (run (main cache_misses) host_rw)) = 2 /\
  Forall (fun p => xscale p = Log 2 /\
                   tick_labels p = Some ["64"; "256"; "1024"; "4096"])
         (panels (run (main cache_misses) host_rw)).
Proof.
  split; [reflexivity |].
  apply Forall_forall. intros p Hin.
  assert (Hlog : xscale p = Log 2).
  { vm_compute in Hin. destruct Hin as [<- | [<- | []]]; reflexivity. }
  split; [exact Hlog |].
  apply (proj2 (log_panels_literal_ticks cache_misses host_rw) p Hin Hlog).
Defined.

(** C5: every series table of a script has the length of the script's
    x-axis list, which is 4; every table is drawn, and every drawn series
    has 4 x-values and 4 y-values. *)
Theorem series_match_axis (s : script_id) (env : Env) :
  List.length (x_axis s) = 4 /\
  Forall (fun t => List.length t = List.length (x_axis s)) (series_tables s) /\
  map ydata (series_drawn (run (main s) env)) = series_tables s /\
  Forall (fun l => xdata l = ints (x_axis s) /\
                   List.length (ydata l) = List.length (xdata l) /\
                   List.length (ydata l) = 4)
         (series_drawn (run (main s) env)).
Proof.
  unfold series_drawn. rewrite panels_any_host.
  destruct s; vm_compute; repeat split; repeat constructor.
Qed.

(** C10: every script draws at least one panel, and every panel holds
    exactly three series, in the order A1, A2, A3, each with its fixed
    marker, colour and label. *)
Theorem three_series_fixed_styles (s : script_id) (env : Env) :
  panels (run (main s) env) <> [] /\
  Forall (fun p => map style (lines p) = strategy_styles /\
                   List.length (lines p) = 3)
         (panels (run (main s) env)) /\
  strategy_styles =
    [("o", "#e74c3c", "A1: Two-Copy (send/recv)");
     ("s", "#2ecc71", "A2: One-Copy (sendmsg + iovec)");
     ("^", "#3498db", "A3: Zero-Copy (MSG_ZEROCOPY)")].
Proof.
  rewrite panels_any_host.
  destruct s; vm_compute; (split; [discriminate | split; repeat constructor]).
Qed.

(** ** Determinism *)


(** Otherwise the run ends in the prelude, before any figure exists. *)
Lemma prelude_stops (s : script_id) (env : Env) :
  imports_ok env = false ->
  exists b w, run (program s) env = Raise (ValueError_backend b) w /\
              figure w = None /\ savefig_calls w = [] /\ stdout w = [].
Proof.
  unfold imports_ok, run, program, prelude, bind, import_matplotlib,
    matplotlib_use.
  intros H. apply andb_false_iff in H.
  destruct (assoc "MPLBACKEND" (environ env)) as [[| c b] |]; cbn in *.
  - destruct H as [H | H]; [discriminate H |]. rewrite H.
    do 2 eexists. repeat split.
  - destruct (known_backend env (String c b)) eqn:E; cbn.
    + destruct H as [H | H]; [discriminate H |]. rewrite H.
      do 2 eexists. repeat split.
    + do 2 eexists. repeat split.
  - destruct H as [H | H]; [discriminate H |]. rewrite H.
    do 2 eexists. repeat split.
Qed.






(** ** A series shorter than its axis *)

(** C8: take any script, any one of its series tables and any position in
    it, and delete that one value from the literal.  The table then has 3
    values against 4 on the axis, and the run of the edited script ends in
    the shape-mismatch error of the [plot] call for that table: the series
    before it are drawn in full, the shortened one is not drawn at all
    (neither cut nor filled up), [savefig] is never reached, no file is
    written and nothing is printed.  The scripts hand their tables to
    [plot] as they are: at the unedited tables the edited script is the
    script. *)
Theorem shortened_series_fails (s : script_id) (k i : nat) (env : Env) :
  k < List.length (series_tables s) ->
  i < List.length (x_axis s) ->
  let tbl := update_nth k (remove_at i) (series_tables s) in
  List.length (nth k tbl []) = 3 /\
  main_with s (series_tables s) = Some (main s) /\
  exists w,
    run_with s tbl env = Some (Raise (ValueError_shape 4 3) w) /\
    List.length (series_drawn (Raise (A:=unit) (ValueError_shape 4 3) w)) = k /\
    Forall (complete 4) (series_drawn (Raise (A:=unit) (ValueError_shape 4 3) w)) /\
    savefig_calls w = [] /\ written w = [] /\ stdout w = [].
Proof.
  intros Hk Hi tbl. subst tbl.
  split; [| split; [apply main_with_shipped |]].
  - destruct s; vm_compute in Hk, Hi;
      do 6 (try destruct k as [| k]); try lia;
      do 4 (try destruct i as [| i]); try lia; reflexivity.
  - destruct s; vm_compute in Hk, Hi;
      do 6 (try destruct k as [| k]); try lia;
      do 4 (try destruct i as [| i]); try lia;
      vm_compute; eexists; (split; [reflexivity |]);
      repeat split; repeat constructor.
Qed.

Lemma shortened_series_witness :
  0 < List.length (series_tables throughput) /\
  3 < List.length (x_axis throughput) /\
  nth 0 (update_nth 0 (remove_at 3) (series_tables throughput)) [] =
    floats [0.1032; 0.4394; 1.6734]%float /\
  exists w,
    run_with throughput (update_nth 0 (remove_at 3) (series_tables throughput))
             host_rw = Some (Raise (ValueError_shape 4 3) w) /\
    written w = [] /\ stdout w = [].
Proof.
  assert (Hk : 0 < List.length (series_tables throughput)) by (vm_compute; lia).
  assert (Hi : 3 < List.length (x_axis throughput)) by (vm_compute; lia).
  split; [exact Hk |]. split; [exact Hi |]. split; [reflexivity |].
  destruct (shortened_series_fails throughput 0 3 host_rw Hk Hi)
    as (_ & _ & w & Hrun & _ & _ & _ & Hw & Hs).
  exists w. repeat split; assumption.
Defined.

(** * The scripts at other tables *)

(** ** Shapes of lists *)

Lemma length_4_inv {A : Type} (t : list A) :
  List.length t = 4 -> exists a b c d, t = [a; b; c; d].
Proof.
  destruct t as [| a [| b [| c [| d [| e t]]]]]; try discriminate.
  intros _. now exists a, b, c, d.
Qed.



Lemma x_axis_length (s : script_id) : List.length (x_axis s) = 4.
Proof. destruct s; reflexivity. Qed.

Lemma series_tables_length (s : script_id) :
  List.length (series_tables s) =
  match s with cache_misses => 6 | _ => 3 end.
Proof. destruct s; reflexivity. Qed.

(** ** Tactics for tables of known shape *)

(** Bring a table list of known length into the shape [[t1; ...; tn]]. *)
Ltac spine l :=
  destruct l as [| ? l];
  [| destruct l as [| ? l];
     [| destruct l as [| ? l];
        [| destruct l as [| ? l];
           [| destruct l as [| ? l];
              [| destruct l as [| ? l];
                 [| destruct l as [| ? l]]]]]]].

Ltac four_values :=
  repeat match goal with
         | H : Forall _ (_ :: _) |- _ => inversion H; subst; clear H
         | H : Forall _ [] |- _ => clear H
         | H : List.length ?t = 4 |- _ =>
             apply length_4_inv in H; destruct H as (? & ? & ? & ? & ->)
         end.

Lemma run_with_well_shaped (s : script_id) (tbl : list (list num)) :
  List.length tbl = List.length (series_tables s) ->
  well_shaped s tbl ->
  exists fg,
    chart_of s tbl = Some fg /\
    map (fun p => map ydata (lines p)) (axes fg) = by_three tbl /\
    Forall (fun p => Forall (fun l => xdata l = ints (x_axis s)) (lines p) /\
                     map style (lines p) = strategy_styles)
           (axes fg) /\
    tight fg = true /\
    Some (blank_y fg) = option_map blank_y (chart_of s (series_tables s)) /\
    forall env,
      run_with s tbl env =
      Some (if writable env (output_name s)
            then Ok tt (mkWorld (Some fg) [savefig_call s]
                                [mkSavedFile (savefig_call s) (Some fg)]
                                [confirmation s] None None)
            else Raise (OSError (output_name s))
                       (mkWorld (Some fg) [savefig_call s] [] [] None None)).
Proof.
  intros Hlen Hws. unfold well_shaped in Hws.
  rewrite x_axis_length in Hws. rewrite series_tables_length in Hlen.
  destruct s; spine tbl; try discriminate Hlen; clear Hlen; four_values.
  all: eexists; split; [vm_compute; reflexivity |].
  all: split; [reflexivity |].
  all: split; [repeat constructor |].
  all: split; [reflexivity |].
  all: split; [vm_compute; reflexivity |].
  all: intros [av en dk nw wr kb]; vm_compute; destruct (wr _); reflexivity.
Qed.




(** ** Runs at well-shaped tables *)

(** X1: replace the tables of a script by any plain tables of 4 values
    each (all floats, or all integers that a double holds exactly).  On a
    host that takes the write the run ends normally; the series drawn are
    the given tables, value by value and in the order given, three to a
    panel, each against the script's x-axis list and in the three fixed
    styles; the script's one file is written and its one line printed. *)
Theorem edited_tables_drawn_as_given (s : script_id) (tbl : list (list num))
    (env : Env) :
  List.length tbl = List.length (series_tables s) ->
  well_shaped s tbl ->
  Forall (fun t => plain_table t = true) tbl ->
  writable env (output_name s) = true ->
  exists w,
    run_with s tbl env = Some (Ok tt w) /\
    map (fun p => map ydata (lines p)) (panels (Ok tt w)) = by_three tbl /\
    Forall (fun p => Forall (fun l => xdata l = ints (x_axis s)) (lines p) /\
                     map style (lines p) = strategy_styles)
           (panels (Ok tt w)) /\
    files_written (Ok tt w) = [output_name s] /\
    printed (Ok tt w) = [confirmation s].
Proof.
  intros Hlen Hws _ Hwr.
  destruct (run_with_well_shaped s tbl Hlen Hws)
    as (fg & _ & Hy & Hx & _ & _ & Hrun).
  specialize (Hrun env). rewrite Hwr in Hrun.
  eexists. split; [exact Hrun |]. now repeat split.
Qed.

Lemma edited_tables_witness :
  exists w,
    run_with cache_misses edited_cache host_rw = Some (Ok tt w) /\
    map (fun p => map ydata (lines p)) (panels (Ok tt w)) =
      [firstn 3 edited_cache; skipn 3 edited_cache].
Proof.
  destruct (edited_tables_drawn_as_given cache_misses edited_cache host_rw)
    as (w & Hrun & Hy & _).
  - reflexivity.
  - repeat constructor.
  - repeat constructor.
  - reflexivity.
  - exists w. split; [exact Hrun | exact Hy].
Defined.

(** ** Runs at ill-shaped tables *)





(** ** The four output paths *)


(** ** What the data can change *)



(** ** What a run never does *)





(** X8: at any plain, well-shaped tables, a refused write ends the run in the
    [OSError] of the one [savefig] call; the figure has been built in
    full, the same as on a host that takes the write, and nothing is
    printed. *)
Theorem refused_write_any_tables (s : script_id) (tbl : list (list num))
    (env : Env) :
  List.length tbl = List.length (series_tables s) ->
  well_shaped s tbl ->
  Forall (fun t => plain_table t = true) tbl ->
  writable env (output_name s) = false ->
  exists w,
    run_with s tbl env = Some (Raise (OSError (output_name s)) w) /\
    figure w = chart_of s tbl /\
    figure w <> None /\
    savefig_calls w = [savefig_call s] /\
    stdout w = [].
Proof.
  intros Hlen Hws _ Hwr.
  destruct (run_with_well_shaped s tbl Hlen Hws)
    as (fg & Hc & _ & _ & _ & _ & Hrun).
  specialize (Hrun env). rewrite Hwr in Hrun.
  eexists. split; [exact Hrun |]. rewrite Hc. now repeat split.
Qed.

Lemma refused_write_witness :
  exists w,
    run_with latency edited_latency host_ro =
      Some (Raise (OSError "MT25082_latency.png") w) /\
    stdout w = [].
Proof.
  destruct (refused_write_any_tables latency edited_latency host_ro)
    as (w & Hrun & _ & _ & _ & Hs).
  - reflexivity.
  - repeat constructor.
  - repeat constructor.
  - reflexivity.
  - exists w. repeat split; assumption.
Defined.

(** ** Ticks and decorations *)

(** X9: at any plain, well-shaped tables the cache-miss chart has two panels and
    the other charts one; in every panel the x-ticks are the x-values of
    the three plotted series (the script's x-axis list), tick label i is
    the decimal numeral of tick i, and the x-scale is linear for the
    latency script and logarithmic to base 2 for the others. *)
Theorem ticks_at_the_data_points (s : script_id) (tbl : list (list num)) :
  List.length tbl = List.length (series_tables s) ->
  well_shaped s tbl ->
  Forall (fun t => plain_table t = true) tbl ->
  exists fg,
    chart_of s tbl = Some fg /\
    List.length (axes fg) = match s with cache_misses => 2 | _ => 1 end /\
    Forall (fun p =>
              xticks p = Some (ints (x_axis s)) /\
              tick_labels p = Some (map str (x_axis s)) /\
              List.length (lines p) = 3 /\
              Forall (fun l => Some (xdata l) = xticks p) (lines p) /\
              xscale p = match s with latency => Linear | _ => Log 2 end)
           (axes fg).
Proof.
  intros Hlen Hws _. unfold well_shaped in Hws.
  rewrite x_axis_length in Hws. rewrite series_tables_length in Hlen.
  destruct s; spine tbl; try discriminate Hlen; clear Hlen; four_values.
  all: eexists; split; [vm_compute; reflexivity |].
  all: split; [reflexivity |]; repeat constructor.
Qed.

Lemma ticks_witness :
  exists fg,
    chart_of cache_misses edited_cache = Some fg /\
    map x_axis_setup (axes fg) =
      repeat (Log 2, Some (ints [64; 256; 1024; 4096]%Z),
              Some ["64"; "256"; "1024"; "4096"]) 2.
Proof.
  destruct (ticks_at_the_data_points cache_misses edited_cache)
    as (fg & Hc & _ & _).
  - reflexivity.
  - repeat constructor.
  - repeat constructor.
  - exists fg. split; [exact Hc |].
    vm_compute in Hc. injection Hc as <-. reflexivity.
Defined.

(** X10: at any plain, well-shaped tables, every panel of every chart (two in
    the cache-miss chart, one in the others) has bold x-label, y-label
    and title, a dashed grid at opacity 0.6 and a legend of frame opacity
    0.9; the legend sits upper left, except in the cycles-per-byte chart,
    where it sits upper right. *)
Theorem panel_decorations (s : script_id) (tbl : list (list num)) :
  List.length tbl = List.length (series_tables s) ->
  well_shaped s tbl ->
  Forall (fun t => plain_table t = true) tbl ->
  exists fg,
    chart_of s tbl = Some fg /\
    List.length (axes fg) = match s with cache_misses => 2 | _ => 1 end /\
    Forall (fun p =>
              option_map fontweight (xlabel p) = Some "bold" /\
              option_map fontweight (ylabel p) = Some "bold" /\
              option_map fontweight (title p) = Some "bold" /\
              grid p = Some (mkGrid true "--" 0.6) /\
              option_map framealpha (legend p) = Some 0.9%float /\
              option_map loc (legend p) =
                Some (match s with
                      | cycles_per_byte => "upper right"
                      | _ => "upper left"
                      end))
           (axes fg).
Proof.
  intros Hlen Hws _. unfold well_shaped in Hws.
  rewrite x_axis_length in Hws. rewrite series_tables_length in Hlen.
  destruct s; spine tbl; try discriminate Hlen; clear Hlen; four_values.
  all: eexists; split; [vm_compute; reflexivity |].
  all: split; [reflexivity |]; repeat constructor.
Qed.

Lemma panel_decorations_witness :
  exists fg,
    chart_of cache_misses edited_cache = Some fg /\
    map (fun p => option_map loc (legend p)) (axes fg) =
      [Some "upper left"; Some "upper left"].
Proof.
  destruct (panel_decorations cache_misses edited_cache)
    as (fg & Hc & _ & _).
  - reflexivity.
  - repeat constructor.
  - repeat constructor.
  - exists fg. split; [exact Hc |].
    vm_compute in Hc. injection Hc as <-. reflexivity.
Defined.
